(** * Google ADK agent templates: tool callbacks and the report pipeline

    A shallow embedding of [agent_template.py] (three tool callbacks bound
    to one agent) and of [multi_agent_template.py] (a sequential pipeline
    over a parallel group), followed by the properties of the two
    templates.

    Conventions of the embedding:
    - a Python [str] is a [string], the sequence of its UTF-8 bytes;
    - a Python [dict] with [str] keys and [str] values is a
      [gmap string string]; equality of maps is Python's [==] on dicts;
    - [tool_context.state] is such a map, threaded through the one tool
      that writes it;
    - what the interpreter and the operating system supply ([str.lower],
      the clock read by [datetime.now]) is a parameter of the tools. *)

From stdpp Require Import gmap strings list fin_maps option.
From Stdlib Require Import Ascii ZArith Lia.

(** A result dict and the session state are both string-keyed maps. *)
Abbreviation pydict := (gmap string string).

(* ===================================================================== *)
(** * Part I: the model                                                   *)
(* ===================================================================== *)

(** ** Python strings *)

Module PyStr.
Local Open Scope Z_scope.

(** [c.lower()] on one ASCII code point: [A-Z] moves to [a-z], every
    other byte is kept. *)
Definition lower_char (c : ascii) : ascii :=
  let n := nat_of_ascii c in
  if ((65 <=? n) && (n <=? 90))%nat then ascii_of_nat (n + 32) else c.

(** [s.lower()] on a string of ASCII code points. The tools take the
    interpreter's [str.lower] as a parameter; this is its value on the
    ASCII inputs of the scenarios. *)
Fixpoint ascii_lower (s : string) : string :=
  match s with
  | EmptyString => EmptyString
  | String c rest => String (lower_char c) (ascii_lower rest)
  end.

(** [sub in s]. *)
Definition contains (sub s : string) : Prop :=
  exists before after : string, s = before +:+ sub +:+ after.

(** Truth value of an [Optional[str]]: [None] and the empty string
    are falsy. [truthy x] is [None] when [not x] holds, and the string
    itself otherwise. *)
Definition truthy (x : option string) : option string :=
  match x with
  | None => None
  | Some EmptyString => None
  | Some (String c s) => Some (String c s)
  end.

Definition is_digit (c : ascii) : bool :=
  let n := nat_of_ascii c in ((48 <=? n) && (n <=? 57))%nat.

Definition digit_char (d : Z) : ascii :=
  match d with
  | 0 => "0" | 1 => "1" | 2 => "2" | 3 => "3" | 4 => "4"
  | 5 => "5" | 6 => "6" | 7 => "7" | 8 => "8" | _ => "9"
  end%char.

(** Decimal digits of [n >= 0], most significant first; [fuel] bounds
    the number of digits. *)
Fixpoint nat_digits (fuel : nat) (n : Z) : string :=
  match fuel with
  | O => EmptyString
  | S fuel' =>
      if n <? 10 then String (digit_char n) EmptyString
      else nat_digits fuel' (n / 10) +:+ String (digit_char (n mod 10)) EmptyString
  end.

(** [str(n)] for an [int]; [n] has at most [n + 1] digits. *)
Definition str_of_int (n : Z) : string :=
  if n <? 0 then String "-"%char (nat_digits (S (Z.to_nat (- n))) (- n))
  else nat_digits (S (Z.to_nat n)) n.

Fixpoint zeros (k : nat) : string :=
  match k with
  | O => EmptyString
  | S k' => String "0"%char (zeros k')
  end.

(** [s.zfill(width)]: zeros on the left up to [width], never a cut. *)
Definition zfill (width : nat) (s : string) : string :=
  zeros (width - String.length s)%nat +:+ s.

(** The [w] low-order decimal digits of [n], a yardstick for the
    output of [zfill] on numbers of at most [w] digits. *)
Fixpoint low_digits (w : nat) (n : Z) : string :=
  match w with
  | O => EmptyString
  | S w' => low_digits w' (n / 10) +:+ String (digit_char (n mod 10)) EmptyString
  end.

End PyStr.

(** ** [datetime] objects and [strftime] *)

Module PyDatetime.
Import PyStr.
Local Open Scope Z_scope.

(** The fields of an aware [datetime.datetime] that [strftime] reads
    here; [tzname] is what [tzinfo.tzname(dt)] gives for [%Z]. *)
Record datetime := mk_datetime {
  year : Z;
  month : Z;
  day : Z;
  hour : Z;
  minute : Z;
  second : Z;
  tzname : string
}.

(** The range invariant of the class: [MINYEAR <= year <= MAXYEAR],
    a month of the year, a day of a month, a time of the day. *)
Definition datetime_ok (dt : datetime) : bool :=
  (1 <=? year dt) && (year dt <=? 9999) &&
  (1 <=? month dt) && (month dt <=? 12) &&
  (1 <=? day dt) && (day dt <=? 31) &&
  (0 <=? hour dt) && (hour dt <? 24) &&
  (0 <=? minute dt) && (minute dt <? 60) &&
  (0 <=? second dt) && (second dt <? 60).

(** A reading whose year has four digits, as every reading of a clock
    set to a date from the year 1000 on has. *)
Definition reading_ok (dt : datetime) : bool :=
  datetime_ok dt && (1000 <=? year dt).

(** One conversion directive. The directives of the template's format
    string are covered; [%%] is a percent sign and any other letter is
    copied with its percent sign. [%Y] is the year as the C library
    prints it, with no padding: the year 999 gives three characters.
    The other numeric directives are padded with zeros to two. *)
Definition directive (c : ascii) (dt : datetime) : string :=
  if Ascii.eqb c "Y" then str_of_int (year dt)
  else if Ascii.eqb c "m" then zfill 2 (str_of_int (month dt))
  else if Ascii.eqb c "d" then zfill 2 (str_of_int (day dt))
  else if Ascii.eqb c "H" then zfill 2 (str_of_int (hour dt))
  else if Ascii.eqb c "M" then zfill 2 (str_of_int (minute dt))
  else if Ascii.eqb c "S" then zfill 2 (str_of_int (second dt))
  else if Ascii.eqb c "Z" then tzname dt
  else if Ascii.eqb c "%" then "%"
  else String "%" (String c EmptyString).

(** [dt.strftime(fmt)]. *)
Fixpoint strftime (fmt : string) (dt : datetime) : string :=
  match fmt with
  | EmptyString => EmptyString
  | String c rest =>
      if Ascii.eqb c "%" then
        match rest with
        | EmptyString => String c EmptyString
        | String d rest' => directive d dt +:+ strftime rest' dt
        end
      else String c (strftime rest dt)
  end.

(** The documented shape [YYYY-MM-DD HH:MM:SS <tz-abbrev>]: a sequence
    of positions, each a decimal digit or a fixed character. *)
Inductive position := Digit | Fixed (c : ascii).

Fixpoint match_positions (ps : list position) (s : string) : option string :=
  match ps with
  | [] => Some s
  | p :: ps' =>
      match s with
      | EmptyString => None
      | String c s' =>
          let ok := match p with
                    | Digit => is_digit c
                    | Fixed f => Ascii.eqb c f
                    end in
          if ok then match_positions ps' s' else None
      end
  end.

Definition timestamp_positions : list position :=
  [Digit; Digit; Digit; Digit; Fixed "-"; Digit; Digit; Fixed "-";
   Digit; Digit; Fixed " "; Digit; Digit; Fixed ":"; Digit; Digit;
   Fixed ":"; Digit; Digit; Fixed " "]%char.

(** [s] is [YYYY-MM-DD HH:MM:SS ] followed by [abbrev]. *)
Definition timestamp_format (abbrev s : string) : bool :=
  match match_positions timestamp_positions s with
  | Some rest => String.eqb rest abbrev
  | None => false
  end.

End PyDatetime.

(** ** [agent_template.py]: the three tool callbacks *)

Module agent_template.
Import PyStr PyDatetime.

(** [ToolContext]: the handle a tool receives to the session state. *)
Record ToolContext := mk_ToolContext { state : pydict }.

Definition timezone_map : pydict :=
  list_to_map
    [("new york", "America/New_York");
     ("london", "Europe/London");
     ("tokyo", "Asia/Tokyo");
     ("paris", "Europe/Paris");
     ("sydney", "Australia/Sydney")].

Definition mock_weather : pydict :=
  list_to_map
    [("new york", "Sunny, 25°C (77°F)");
     ("london", "Cloudy, 15°C (59°F)");
     ("tokyo", "Partly cloudy, 28°C (82°F)")].

Section Tools.
(** [str.lower] of the interpreter. *)
Variable lower : string -> string.
(** [datetime.datetime.now(ZoneInfo(tz_id))]: the reading of the
    clock in the zone [tz_id], at the moment of the call. The zone
    database is taken to know the identifier, as it does the five IANA
    names of [timezone_map]. *)
Variable now : string -> datetime.

Definition get_current_time (city : string) : pydict :=
  let tz_id := timezone_map !! lower city in
  match truthy tz_id with
  | None =>
      {[ "status" := "error";
         "error_message" := "Timezone not found for '" +:+ city +:+ "'." ]}
  | Some tz_id =>
      let now := now tz_id in
      {[ "status" := "success";
         "report" := "Current time in " +:+ city +:+ ": "
                     +:+ strftime "%Y-%m-%d %H:%M:%S %Z" now ]}
  end.

Definition get_weather (city : string) : pydict :=
  let report := mock_weather !! lower city in
  match truthy report with
  | None =>
      {[ "status" := "error";
         "error_message" := "Weather data unavailable for '" +:+ city +:+ "'." ]}
  | Some report =>
      {[ "status" := "success";
         "report" := "Weather in " +:+ city +:+ ": " +:+ report ]}
  end.

(** The write to [tool_context.state] is the second component. *)
Definition save_user_preference (key value : string) (tool_context : ToolContext)
  : pydict * ToolContext :=
  let tool_context := mk_ToolContext (<["user:" +:+ key := value]> (state tool_context)) in
  ({[ "status" := "saved"; "key" := key; "value" := value ]}, tool_context).

(** [tools=[get_current_time, get_weather, save_user_preference]]: a
    call the agent may issue, with the arguments the model chose. *)
Inductive tool_call :=
| call_get_current_time (city : string)
| call_get_weather (city : string)
| call_save_user_preference (key value : string).

(** The runner invokes the named tool, handing the session's
    [ToolContext] to the one that declares the parameter. *)
Definition invoke (c : tool_call) (tool_context : ToolContext) : pydict * ToolContext :=
  match c with
  | call_get_current_time city => (get_current_time city, tool_context)
  | call_get_weather city => (get_weather city, tool_context)
  | call_save_user_preference key value => save_user_preference key value tool_context
  end.
End Tools.

End agent_template.

(** ** [multi_agent_template.py]: the report pipeline *)

Module multi_agent_template.

(** The three agent classes of the template, with the keyword arguments
    the template passes. *)
Inductive agent :=
| LlmAgent (name model description instruction : string) (output_key : option string)
| ParallelAgent (name : string) (sub_agents : list agent)
| SequentialAgent (name description : string) (sub_agents : list agent).

Definition MODEL : string := "gemini-2.5-flash".

Definition research_agent : agent :=
  LlmAgent "Researcher" MODEL
    "Researches a topic and provides key findings."
    "You are a research specialist. Given a topic, provide 3-5 key findings
with brief explanations. Be factual and concise."
    (Some "research_findings").

Definition data_agent : agent :=
  LlmAgent "DataAnalyst" MODEL
    "Analyzes data and provides statistical insights."
    "You are a data analysis specialist. Given a topic, provide
relevant statistics, trends, and quantitative insights."
    (Some "data_insights").

Definition writer_agent : agent :=
  LlmAgent "Writer" MODEL
    "Writes polished content from research and data."
    "You are a professional writer. Using the research findings
from {research_findings} and data insights from {data_insights},
write a well-structured, engaging summary. Include an introduction,
key points, and conclusion."
    (Some "final_report").

Definition parallel_gather : agent :=
  ParallelAgent "GatherInfo" [research_agent; data_agent].

Definition root_agent : agent :=
  SequentialAgent "ReportPipeline"
    "Generates comprehensive reports by researching, analyzing data, and writing."
    [parallel_gather; writer_agent].

Definition sub_agents (a : agent) : list agent :=
  match a with
  | LlmAgent _ _ _ _ _ => []
  | ParallelAgent _ subs => subs
  | SequentialAgent _ _ subs => subs
  end.

End multi_agent_template.

(** ** The orchestration the templates are written for

    The framework that interpolates instructions and runs the composite
    agents is not part of the repository. *)

Module pipeline_runtime.
Import multi_agent_template.

(** Modelled from the spec: the instruction template of an agent, which
    "may contain placeholders referencing named outputs of upstream
    agents". A placeholder is a name between a left and the next right
    brace; everything else is literal text. *)
Inductive segment :=
| Literal (c : ascii)
| Placeholder (name : string).

Fixpoint literals (s : string) : list segment :=
  match s with
  | EmptyString => []
  | String c s' => Literal c :: literals s'
  end.

(** Modelled from the spec: reading a template from left to right.
    [pending] is [Some acc] after a left brace, [acc] being the name read
    so far; a left brace that is never closed is literal text. *)
Fixpoint segments_from (pending : option string) (s : string) : list segment :=
  match s, pending with
  | EmptyString, None => []
  | EmptyString, Some acc => Literal "{" :: literals acc
  | String c s', None =>
      if Ascii.eqb c "{" then segments_from (Some EmptyString) s'
      else Literal c :: segments_from None s'
  | String c s', Some acc =>
      if Ascii.eqb c "}" then Placeholder acc :: segments_from None s'
      else if Ascii.eqb c "{" then
        Literal "{" :: literals acc ++ segments_from (Some EmptyString) s'
      else segments_from (Some (acc +:+ String c EmptyString)) s'
  end.

Definition segments (template : string) : list segment :=
  segments_from None template.

(** Modelled from the spec: the names a template refers to. *)
Definition placeholders (template : string) : list string :=
  omap (fun g => match g with Placeholder n => Some n | Literal _ => None end)
       (segments template).

(** Modelled from the spec: variable interpolation, "each stage sees the
    cumulative session state written by all prior stages, including
    their output_key values, which the stage's instruction template may
    interpolate by name". Each placeholder is replaced once by the value
    the state holds under its name; the replaced text is not read
    again. A name the state does not hold makes the stage fail. *)
Fixpoint render_segments (st : pydict) (gs : list segment) : option string :=
  match gs with
  | [] => Some EmptyString
  | Literal c :: gs' => String c <$> render_segments st gs'
  | Placeholder n :: gs' =>
      v ← st !! n; rest ← render_segments st gs'; Some (v +:+ rest)
  end.

Definition render (st : pydict) (template : string) : option string :=
  render_segments st (segments template).

(** Modelled from the spec: the instruction a stage hands to its model,
    "after variable interpolation". Only an [LlmAgent] has one. *)
Definition rendered_instruction (a : agent) (st : pydict) : option string :=
  match a with
  | LlmAgent _ _ _ instruction _ => render st instruction
  | ParallelAgent _ _ | SequentialAgent _ _ _ => None
  end.

(** Modelled from the spec: the slots written by a run, in order. *)
Definition write_all (writes : list (string * string)) (st : pydict) : pydict :=
  foldl (fun m kv => <[kv.1 := kv.2]> m) st writes.

Section Run.
(** The language model behind an agent: the agent's name and its
    rendered instruction give a final response, or the turn fails. *)
Variable llm : string -> string -> option string.

(** Modelled from the spec: one run of an agent against the session
    state [st], giving the [output_key] slots it writes, or [None]
    when a stage fails.
    - an agent with an [output_key] writes its final response there;
    - a Parallel Group runs "all member agents against the same input
      context" and collects "each one's output into its declared
      output_key slot", failing as a whole if a member fails;
    - a Sequential Pipeline runs its "stages in declared order; each
      stage sees the cumulative session state written by all prior
      stages", and "a failing stage aborts the pipeline". *)
Fixpoint outputs (a : agent) (st : pydict) : option (list (string * string)) :=
  match a with
  | LlmAgent name _ _ instruction output_key =>
      text ← render st instruction;
      response ← llm name text;
      Some (match output_key with
            | Some k => [(k, response)]
            | None => []
            end)
  | ParallelAgent _ subs =>
      (fix members (l : list agent) : option (list (string * string)) :=
         match l with
         | [] => Some []
         | m :: l' =>
             w ← outputs m st; ws ← members l'; Some (w ++ ws)
         end) subs
  | SequentialAgent _ _ subs =>
      (fix stages (l : list agent) (st' : pydict) : option (list (string * string)) :=
         match l with
         | [] => Some []
         | m :: l' =>
             w ← outputs m st'; ws ← stages l' (write_all w st'); Some (w ++ ws)
         end) subs st
  end.

(** Modelled from the spec: the session state after the run. *)
Definition run (a : agent) (st : pydict) : option pydict :=
  w ← outputs a st; Some (write_all w st).
End Run.

(** Modelled from the spec: the [output_key]s an agent, or any agent
    below it, produces. *)
Fixpoint output_keys (a : agent) : list string :=
  match a with
  | LlmAgent _ _ _ _ output_key => option_list output_key
  | ParallelAgent _ subs => flat_map output_keys subs
  | SequentialAgent _ _ subs => flat_map output_keys subs
  end.

(** Modelled from the spec: the placeholders of the instructions of an
    agent and of the agents below it. *)
Fixpoint referenced_keys (a : agent) : list string :=
  match a with
  | LlmAgent _ _ _ instruction _ => placeholders instruction
  | ParallelAgent _ subs => flat_map referenced_keys subs
  | SequentialAgent _ _ subs => flat_map referenced_keys subs
  end.

End pipeline_runtime.

(** ** What the claims speak of, and sample inputs *)

Module samples.
Import PyStr PyDatetime agent_template.
Local Open Scope Z_scope.

(** The cities the time lookup is documented to support. *)
Definition supported_cities : list string :=
  ["new york"; "london"; "tokyo"; "paris"; "sydney"].

(** The cities of the fixed weather dataset. *)
Definition weather_cities : list string :=
  ["new york"; "london"; "tokyo"].

(** The [status] field of a result. *)
Definition status (result : pydict) : option string := result !! "status".

(** The caller's test [result["status"] == "success"]. *)
Definition is_success (result : pydict) : bool :=
  bool_decide (status result = Some "success").

(** Exactly one of [report] and [error_message] is a key of [result]. *)
Definition one_of_report_or_error (result : pydict) : Prop :=
  (is_Some (result !! "report") /\ result !! "error_message" = None) \/
  (result !! "report" = None /\ is_Some (result !! "error_message")).

(** The zone abbreviation and the offset from a Tokyo wall clock, for
    the five zones of [timezone_map] on a day of northern winter. *)
Definition zone_of (tz_id : string) : string * Z :=
  if String.eqb tz_id "America/New_York" then ("EST", -14)
  else if String.eqb tz_id "Europe/London" then ("GMT", -9)
  else if String.eqb tz_id "Asia/Tokyo" then ("JST", 0)
  else if String.eqb tz_id "Europe/Paris" then ("CET", -8)
  else if String.eqb tz_id "Australia/Sydney" then ("AEDT", 2)
  else ("UTC", -9).

(** A clock read at [h:mi:s] Tokyo time on 4 November 2026, at an hour
    of the day at which the five zones are on the same date. *)
Definition clock_at (h mi s : Z) (tz_id : string) : datetime :=
  mk_datetime 2026 11 4 (h + (zone_of tz_id).2) mi s (zone_of tz_id).1.

Definition afternoon : string -> datetime := clock_at 15 5 0.
Definition evening : string -> datetime := clock_at 21 30 59.

Definition empty_context : ToolContext := mk_ToolContext ∅.

(** A well-formed reading in the year 999, with a local mean time
    abbreviation. *)
Definition reading_of_999 : datetime := mk_datetime 999 1 2 3 4 5 "LMT".

(** A language model that answers every agent with a fixed sentence
    about the agent's name. *)
Definition echo_llm (name instruction : string) : option string :=
  Some ("Notes of " +:+ name +:+ ".").

(** The session state after [GatherInfo] ran with [echo_llm]. *)
Definition gathered_state : pydict :=
  <["data_insights" := "Notes of DataAnalyst."]>
    (<["research_findings" := "Notes of Researcher."]> ∅).

End samples.

(** ** The agent of [agent_template.py] *)

Module agent_template_root.

(** The callables bound to the agent; the framework names a tool after
    its function. *)
Inductive tool :=
| tool_get_current_time
| tool_get_weather
| tool_save_user_preference.

Definition tool_name (t : tool) : string :=
  match t with
  | tool_get_current_time => "get_current_time"
  | tool_get_weather => "get_weather"
  | tool_save_user_preference => "save_user_preference"
  end.

(** The tool a call of the agent goes to. *)
Definition tool_of_call (c : agent_template.tool_call) : tool :=
  match c with
  | agent_template.call_get_current_time _ => tool_get_current_time
  | agent_template.call_get_weather _ => tool_get_weather
  | agent_template.call_save_user_preference _ _ => tool_save_user_preference
  end.

(** The keyword arguments of [Agent(...)]. *)
Record Agent := mk_Agent {
  model : string;
  name : string;
  description : string;
  instruction : string;
  tools : list tool
}.

(** The double quote of the instruction text. *)
Definition double_quote : string := String "034"%char EmptyString.

Definition root_agent : Agent :=
  mk_Agent
    "gemini-2.5-flash"
    "assistant"
    "A helpful assistant that provides time, weather, and remembers user preferences."
    ("You are a friendly and helpful assistant.

You can:
1. Tell the current time in various cities using 'get_current_time'
2. Provide weather reports using 'get_weather'
3. Save user preferences using 'save_user_preference'

When the user asks about time or weather, use the appropriate tool.
If the user expresses a preference (e.g., "
     +:+ double_quote +:+ "my favorite city is Paris" +:+ double_quote +:+ "),
save it using save_user_preference.

Always be concise and friendly in your responses.")
    [tool_get_current_time; tool_get_weather; tool_save_user_preference].

End agent_template_root.

(** ** Sequences of tool calls, and vocabulary for their properties *)

Module tool_runs.
Import PyStr PyDatetime agent_template samples.

(** [c.upper()] on one ASCII code point. *)
Definition upper_char (c : ascii) : ascii :=
  let n := nat_of_ascii c in
  if ((97 <=? n) && (n <=? 122))%nat then ascii_of_nat (n - 32) else c.

(** [s.upper()] on a string of ASCII code points. *)
Fixpoint ascii_upper (s : string) : string :=
  match s with
  | EmptyString => EmptyString
  | String c rest => String (upper_char c) (ascii_upper rest)
  end.

(** [A-Z] or [a-z]. *)
Definition is_ascii_letter (c : ascii) : bool :=
  let n := nat_of_ascii c in
  (((65 <=? n) && (n <=? 90)) || ((97 <=? n) && (n <=? 122)))%nat.

(** [s[0]] and [s[-1]], when [s] is not empty. *)
Definition head_char (s : string) : option ascii :=
  match s with
  | EmptyString => None
  | String c _ => Some c
  end.

Fixpoint last_char (s : string) : option ascii :=
  match s with
  | EmptyString => None
  | String c EmptyString => Some c
  | String _ rest => last_char rest
  end.

(** [k.startswith("user:")]. *)
Definition in_user_namespace (k : string) : bool := String.prefix "user:" k.

(** How status and payload go together in the result of a lookup: the
    status is "success" or "error", "success" goes with [report] alone
    and "error" with [error_message] alone. *)
Definition status_tracks_payload (result : pydict) : Prop :=
  (status result = Some "success" \/ status result = Some "error") /\
  (status result = Some "success" <->
   is_Some (result !! "report") /\ result !! "error_message" = None) /\
  (status result = Some "error" <->
   is_Some (result !! "error_message") /\ result !! "report" = None).

(** The zone identifiers of [timezone_map]. *)
Definition zone_ids : list string :=
  ["America/New_York"; "Europe/London"; "Asia/Tokyo"; "Europe/Paris";
   "Australia/Sydney"].

Section Runs.
Variable lower : string -> string.
Variable now : string -> datetime.

(** The calls of one conversation, in the order the agent issues them;
    each tool sees the session state the earlier ones left. *)
Fixpoint invoke_all (calls : list tool_call) (tool_context : ToolContext)
  : list pydict * ToolContext :=
  match calls with
  | [] => ([], tool_context)
  | c :: calls' =>
      let r := invoke lower now c tool_context in
      let rs := invoke_all calls' r.2 in
      (r.1 :: rs.1, rs.2)
  end.
End Runs.

(** The value of the last [save_user_preference(key, ...)] among
    [calls], if there is one. *)
Fixpoint last_saved (key : string) (calls : list tool_call) : option string :=
  match calls with
  | [] => None
  | c :: calls' =>
      match last_saved key calls' with
      | Some v => Some v
      | None =>
          match c with
          | call_save_user_preference k v =>
              if String.eqb k key then Some v else None
          | call_get_current_time _ | call_get_weather _ => None
          end
      end
  end.

End tool_runs.

(** ** The agents of the report pipeline, as a tree *)

Module pipeline_config.
Import multi_agent_template.

(** The names of an agent and of the agents below it. *)
Fixpoint agent_names (a : agent) : list string :=
  match a with
  | LlmAgent name _ _ _ _ => [name]
  | ParallelAgent name subs => name :: flat_map agent_names subs
  | SequentialAgent name _ subs => name :: flat_map agent_names subs
  end.

(** The model identifiers and the instructions of the [LlmAgent]s of a
    tree. *)
Fixpoint agent_models (a : agent) : list string :=
  match a with
  | LlmAgent _ model _ _ _ => [model]
  | ParallelAgent _ subs => flat_map agent_models subs
  | SequentialAgent _ _ subs => flat_map agent_models subs
  end.

Fixpoint agent_instructions (a : agent) : list string :=
  match a with
  | LlmAgent _ _ _ instruction _ => [instruction]
  | ParallelAgent _ subs => flat_map agent_instructions subs
  | SequentialAgent _ _ subs => flat_map agent_instructions subs
  end.

(** The [output_key]s declared in a tree. *)
Fixpoint declared_output_keys (a : agent) : list string :=
  match a with
  | LlmAgent _ _ _ _ output_key => option_list output_key
  | ParallelAgent _ subs => flat_map declared_output_keys subs
  | SequentialAgent _ _ subs => flat_map declared_output_keys subs
  end.

(** Whether a brace occurs in [s]. *)
Fixpoint has_brace (s : string) : bool :=
  match s with
  | EmptyString => false
  | String c rest => Ascii.eqb c "{" || Ascii.eqb c "}" || has_brace rest
  end.

End pipeline_config.

(* ===================================================================== *)
(** * Part II: properties                                                 *)
(* ===================================================================== *)

Import PyStr PyDatetime agent_template multi_agent_template pipeline_runtime samples.

(** ** Strings and timestamps *)

Section StringFacts.
Local Open Scope Z_scope.

Lemma string_app_cons (x : ascii) (a b : string) :
  String x a +:+ b = String x (a +:+ b).
Proof. reflexivity. Qed.

Lemma string_app_nil_l (a : string) : "" +:+ a = a.
Proof. reflexivity. Qed.

Lemma string_app_assoc (a b c : string) : (a +:+ b) +:+ c = a +:+ (b +:+ c).
Proof.
  induction a as [|x a IH]; [reflexivity|].
  by rewrite !string_app_cons, IH.
Qed.

Lemma string_app_nil_r (a : string) : a +:+ "" = a.
Proof.
  induction a as [|x a IH]; [reflexivity|].
  by rewrite string_app_cons, IH.
Qed.

Lemma string_app_length (a b : string) :
  String.length (a +:+ b) = (String.length a + String.length b)%nat.
Proof.
  induction a as [|x a IH]; [reflexivity|].
  rewrite string_app_cons. cbn [String.length]. by rewrite IH.
Qed.

Lemma contains_intro (before sub after : string) :
  contains sub (before +:+ sub +:+ after).
Proof. by exists before, after. Qed.

Lemma is_digit_digit_char (d : Z) : is_digit (digit_char d) = true.
Proof.
  unfold digit_char.
  repeat match goal with
         | |- context [match ?x with _ => _ end] => destruct x
         end; reflexivity.
Qed.

Lemma low_digits_zero (w : nat) : low_digits w 0 = zeros w.
Proof.
  induction w as [|w IH]; [reflexivity|].
  cbn [low_digits]. rewrite Zdiv_0_l, Zmod_0_l, IH. clear IH.
  induction w as [|w IH]; [reflexivity|].
  cbn [zeros] in *. by rewrite string_app_cons, IH.
Qed.

Lemma nat_digits_small (fuel : nat) (n : Z) :
  0 <= n < 10 -> nat_digits (S fuel) n = String (digit_char n) "".
Proof.
  intros Hn. cbn [nat_digits].
  destruct (Z.ltb_spec n 10); [reflexivity | lia].
Qed.

Lemma nat_digits_large (fuel : nat) (n : Z) :
  10 <= n ->
  nat_digits (S fuel) n = nat_digits fuel (n / 10) +:+ String (digit_char (n mod 10)) "".
Proof.
  intros Hn. cbn [nat_digits].
  destruct (Z.ltb_spec n 10); [lia | reflexivity].
Qed.

(** With fuel above [n], zero filling the digits of [n < 10^w] gives
    exactly [w] digits. *)
Lemma zfill_nat_digits (w fuel : nat) (n : Z) :
  0 <= n < 10 ^ Z.of_nat (S w) -> (Z.to_nat n < fuel)%nat ->
  zfill (S w) (nat_digits fuel n) = low_digits (S w) n.
Proof.
  revert fuel n. induction w as [|w IH]; intros fuel n Hn Hfuel.
  - destruct fuel as [|fuel]; [lia|].
    change (10 ^ Z.of_nat 1) with 10 in Hn.
    rewrite nat_digits_small by lia.
    cbn [low_digits]. rewrite Z.mod_small by lia. reflexivity.
  - destruct fuel as [|fuel]; [lia|].
    destruct (Z_lt_le_dec n 10) as [Hlt|Hge].
    + rewrite nat_digits_small by lia.
      cbn [low_digits]. rewrite (Z.div_small n 10), (Z.mod_small n 10) by lia.
      change (low_digits w (0 / 10) +:+ String (digit_char (0 mod 10)) "")
        with (low_digits (S w) 0).
      rewrite low_digits_zero.
      unfold zfill. cbn [String.length].
      replace (S (S w) - 1)%nat with (S w) by lia. reflexivity.
    + rewrite nat_digits_large by lia.
      assert (Hdiv : 0 <= n / 10 < 10 ^ Z.of_nat (S w)).
      { split; [apply Z.div_pos; lia|].
        apply Z.div_lt_upper_bound; [lia|].
        rewrite <- Z.pow_succ_r by lia.
        replace (Z.succ (Z.of_nat (S w))) with (Z.of_nat (S (S w))) by lia.
        lia. }
      assert (Hf : (Z.to_nat (n / 10) < fuel)%nat).
      { assert (n / 10 < n) by (apply Z.div_lt; lia). lia. }
      specialize (IH fuel (n / 10) Hdiv Hf).
      change (low_digits (S (S w)) n)
        with (low_digits (S w) (n / 10) +:+ String (digit_char (n mod 10)) "").
      rewrite <- IH. unfold zfill.
      rewrite string_app_length. cbn [String.length].
      replace (S (S w) - (String.length (nat_digits fuel (n / 10)) + 1))%nat
        with (S w - String.length (nat_digits fuel (n / 10)))%nat by lia.
      by rewrite string_app_assoc.
Qed.

Lemma zfill_str_of_int (w : nat) (n : Z) :
  0 <= n < 10 ^ Z.of_nat (S w) ->
  zfill (S w) (str_of_int n) = low_digits (S w) n.
Proof.
  intros Hn. unfold str_of_int.
  destruct (Z.ltb_spec n 0); [lia|].
  apply zfill_nat_digits; [done | lia].
Qed.

End StringFacts.

Section TimestampFacts.
Local Open Scope Z_scope.

Lemma match_digit (d : Z) (ps : list position) (s : string) :
  match_positions (Digit :: ps) (String (digit_char d) s) = match_positions ps s.
Proof. cbn [match_positions]. by rewrite is_digit_digit_char. Qed.

Lemma match_fixed (c : ascii) (ps : list position) (s : string) :
  match_positions (Fixed c :: ps) (String c s) = match_positions ps s.
Proof. cbn [match_positions]. by rewrite Ascii.eqb_refl. Qed.

Lemma strftime_unfold (dt : datetime) :
  strftime "%Y-%m-%d %H:%M:%S %Z" dt =
  str_of_int (year dt) +:+ "-" +:+
  zfill 2 (str_of_int (month dt)) +:+ "-" +:+
  zfill 2 (str_of_int (day dt)) +:+ " " +:+
  zfill 2 (str_of_int (hour dt)) +:+ ":" +:+
  zfill 2 (str_of_int (minute dt)) +:+ ":" +:+
  zfill 2 (str_of_int (second dt)) +:+ " " +:+ tzname dt.
Proof.
  rewrite <- (string_app_nil_r (tzname dt)). reflexivity.
Qed.

Lemma datetime_ok_ranges (dt : datetime) :
  datetime_ok dt = true ->
  1 <= year dt <= 9999 /\ 1 <= month dt <= 12 /\ 1 <= day dt <= 31 /\
  0 <= hour dt < 24 /\ 0 <= minute dt < 60 /\ 0 <= second dt < 60.
Proof.
  unfold datetime_ok. rewrite !andb_true_iff.
  rewrite !Z.leb_le, !Z.ltb_lt. lia.
Qed.

Lemma reading_ok_ranges (dt : datetime) :
  reading_ok dt = true ->
  1000 <= year dt <= 9999 /\ 1 <= month dt <= 12 /\ 1 <= day dt <= 31 /\
  0 <= hour dt < 24 /\ 0 <= minute dt < 60 /\ 0 <= second dt < 60.
Proof.
  unfold reading_ok. rewrite andb_true_iff, Z.leb_le.
  intros [Hok Hy]. apply datetime_ok_ranges in Hok. lia.
Qed.

(** A number of four digits is printed with its four digits. *)
Lemma str_of_int_four_digits (n : Z) :
  1000 <= n <= 9999 -> str_of_int n = low_digits 4 n.
Proof.
  intros Hn.
  rewrite <- (zfill_str_of_int 3) by (change (10 ^ Z.of_nat 4) with 10000; lia).
  unfold str_of_int. destruct (Z.ltb_spec n 0); [lia|].
  destruct (Z.to_nat n) as [|[|[|fuel]]] eqn:Hfuel; [lia..|].
  assert (H10 : 10 <= n / 10).
  { apply Z.div_le_lower_bound; lia. }
  assert (H100 : 10 <= n / 10 / 10).
  { apply Z.div_le_lower_bound; [lia|].
    apply Z.div_le_lower_bound; lia. }
  assert (H1000 : 0 <= n / 10 / 10 / 10 < 10).
  { split; [apply Z.div_pos; lia|].
    do 3 (apply Z.div_lt_upper_bound; [lia|]). lia. }
  rewrite !nat_digits_large by lia.
  rewrite nat_digits_small by lia.
  reflexivity.
Qed.

(** A year of fewer than four digits is printed as it is, and the
    timestamp then misses the documented shape. *)
Lemma strftime_year_999 :
  datetime_ok reading_of_999 = true /\
  strftime "%Y-%m-%d %H:%M:%S %Z" reading_of_999 = "999-01-02 03:04:05 LMT" /\
  timestamp_format "LMT" (strftime "%Y-%m-%d %H:%M:%S %Z" reading_of_999) = false.
Proof. repeat split; vm_compute; reflexivity. Qed.

(** The timestamp of a well-formed reading with a year of four digits
    has the documented shape. *)
Lemma strftime_timestamp_format (dt : datetime) :
  reading_ok dt = true ->
  timestamp_format (tzname dt) (strftime "%Y-%m-%d %H:%M:%S %Z" dt) = true.
Proof.
  intros Hok. apply reading_ok_ranges in Hok.
  destruct Hok as (Hy & Hm & Hd & Hh & Hmi & Hs).
  rewrite strftime_unfold.
  rewrite str_of_int_four_digits by lia.
  rewrite !(zfill_str_of_int 1) by (change (10 ^ Z.of_nat 2) with 100; lia).
  cbn [low_digits].
  repeat (rewrite string_app_nil_l || rewrite string_app_cons).
  unfold timestamp_format, timestamp_positions.
  repeat (rewrite match_digit || rewrite match_fixed).
  cbn [match_positions]. apply String.eqb_refl.
Qed.

End TimestampFacts.

(** ** The lookup tables *)

Section TableFacts.

Lemma truthy_Some (x : option string) (s : string) :
  truthy x = Some s -> x = Some s /\ s <> "".
Proof. destruct x as [[|c r]|]; intros H; inversion H; by subst. Qed.

(** Every supported city has a zone, a non-empty identifier. *)
Lemma timezone_map_supported (c : string) :
  c ∈ supported_cities ->
  exists tz_id, timezone_map !! c = Some tz_id /\ truthy (Some tz_id) = Some tz_id.
Proof.
  unfold supported_cities. intros H.
  repeat (apply elem_of_cons in H as [->|H]);
    [eexists; split; [vm_compute; reflexivity | reflexivity] ..|].
  by apply elem_of_nil in H.
Qed.

Lemma timezone_map_unsupported (c : string) :
  c ∉ supported_cities -> timezone_map !! c = None.
Proof. intros H. by apply not_elem_of_list_to_map_1. Qed.

Lemma mock_weather_known (c : string) :
  c ∈ weather_cities ->
  exists report, mock_weather !! c = Some report /\ truthy (Some report) = Some report.
Proof.
  unfold weather_cities. intros H.
  repeat (apply elem_of_cons in H as [->|H]);
    [eexists; split; [vm_compute; reflexivity | reflexivity] ..|].
  by apply elem_of_nil in H.
Qed.

Lemma mock_weather_unknown (c : string) :
  c ∉ weather_cities -> mock_weather !! c = None.
Proof. intros H. by apply not_elem_of_list_to_map_1. Qed.

Lemma mock_weather_Some (c report : string) :
  mock_weather !! c = Some report -> c ∈ weather_cities.
Proof.
  intros H. destruct (decide (c ∈ weather_cities)) as [|Hn]; [done|].
  apply mock_weather_unknown in Hn. congruence.
Qed.

Lemma weather_cities_supported (c : string) :
  c ∈ weather_cities -> c ∈ supported_cities.
Proof. unfold weather_cities, supported_cities. rewrite !elem_of_cons. tauto. Qed.

End TableFacts.

(** ** The time lookup *)

Section TimeLookup.
Variable lower : string -> string.
Variable now : string -> datetime.

Lemma get_current_time_success (city tz_id : string) :
  timezone_map !! lower city = Some tz_id -> tz_id <> "" ->
  get_current_time lower now city =
    {[ "status" := "success";
       "report" := "Current time in " +:+ city +:+ ": "
                   +:+ strftime "%Y-%m-%d %H:%M:%S %Z" (now tz_id) ]}.
Proof.
  intros Hl Hne. unfold get_current_time. rewrite Hl.
  destruct tz_id as [|c r]; [done | reflexivity].
Qed.

Lemma get_current_time_error (city : string) :
  timezone_map !! lower city = None ->
  get_current_time lower now city =
    {[ "status" := "error";
       "error_message" := "Timezone not found for '" +:+ city +:+ "'." ]}.
Proof. intros Hl. unfold get_current_time. by rewrite Hl. Qed.

Lemma get_current_time_cases (city : string) :
  (lower city ∈ supported_cities /\
   exists tz_id, timezone_map !! lower city = Some tz_id /\
     get_current_time lower now city =
       {[ "status" := "success";
          "report" := "Current time in " +:+ city +:+ ": "
                      +:+ strftime "%Y-%m-%d %H:%M:%S %Z" (now tz_id) ]}) \/
  ((lower city ∉ supported_cities) /\
   get_current_time lower now city =
     {[ "status" := "error";
        "error_message" := "Timezone not found for '" +:+ city +:+ "'." ]}).
Proof.
  destruct (decide (lower city ∈ supported_cities)) as [Hin|Hout].
  - left. split; [done|].
    destruct (timezone_map_supported _ Hin) as (tz_id & Hl & Ht).
    exists tz_id. split; [done|].
    apply get_current_time_success; [done|].
    intros ->. discriminate Ht.
  - right. split; [done|].
    by apply get_current_time_error, timezone_map_unsupported.
Qed.

(** C1. For every city whose lower-cased form is one of the five
    supported cities, [get_current_time] returns a dict with status
    "success" and a report whose timestamp, the clock reading in the
    zone [timezone_map] gives for that city, has the shape
    [YYYY-MM-DD HH:MM:SS <tz-abbrev>]; for every other city it returns
    status "error" with a non-empty [error_message]. The clock is one
    whose readings are well-formed and have a year of four digits. *)
Theorem get_current_time_supported_or_error (city : string) :
  (forall tz_id, reading_ok (now tz_id) = true) ->
  (lower city ∈ supported_cities ->
   exists tz_id timestamp,
     timezone_map !! lower city = Some tz_id /\
     get_current_time lower now city =
       {[ "status" := "success";
          "report" := "Current time in " +:+ city +:+ ": " +:+ timestamp ]} /\
     timestamp = strftime "%Y-%m-%d %H:%M:%S %Z" (now tz_id) /\
     timestamp_format (tzname (now tz_id)) timestamp = true) /\
  (lower city ∉ supported_cities ->
   exists message,
     get_current_time lower now city =
       {[ "status" := "error"; "error_message" := message ]} /\
     message <> "").
Proof.
  intros Hclock. split; intros Hcity.
  - destruct (get_current_time_cases city) as [(_ & tz_id & Hl & Hr)|(Hout & _)];
      [|done].
    exists tz_id, (strftime "%Y-%m-%d %H:%M:%S %Z" (now tz_id)).
    repeat split; [done | done |].
    by apply strftime_timestamp_format.
  - destruct (get_current_time_cases city) as [(Hin & _)|(_ & Hr)]; [done|].
    eexists. split; [exact Hr | discriminate].
Qed.

End TimeLookup.

(** ** The weather lookup *)

Section WeatherLookup.
Variable lower : string -> string.

Lemma get_weather_success (city report : string) :
  mock_weather !! lower city = Some report -> report <> "" ->
  get_weather lower city =
    {[ "status" := "success";
       "report" := "Weather in " +:+ city +:+ ": " +:+ report ]}.
Proof.
  intros Hl Hne. unfold get_weather. rewrite Hl.
  destruct report as [|c r]; [done | reflexivity].
Qed.

Lemma get_weather_error (city : string) :
  mock_weather !! lower city = None ->
  get_weather lower city =
    {[ "status" := "error";
       "error_message" := "Weather data unavailable for '" +:+ city +:+ "'." ]}.
Proof. intros Hl. unfold get_weather. by rewrite Hl. Qed.

(** C2. For every city whose lower-cased form is a key of the fixed
    weather dataset, [get_weather] returns a dict with status "success"
    and a report string; for every other city it returns a dict with
    status "error" and an [error_message]. *)
Theorem get_weather_known_or_error (city : string) :
  (lower city ∈ weather_cities ->
   exists report,
     mock_weather !! lower city = Some report /\
     get_weather lower city =
       {[ "status" := "success";
          "report" := "Weather in " +:+ city +:+ ": " +:+ report ]}) /\
  (lower city ∉ weather_cities ->
   exists message,
     get_weather lower city =
       {[ "status" := "error"; "error_message" := message ]}).
Proof.
  split; intros Hcity.
  - destruct (mock_weather_known _ Hcity) as (report & Hl & Ht).
    exists report. split; [done|].
    apply get_weather_success; [done|].
    intros ->. discriminate Ht.
  - eexists. by apply get_weather_error, mock_weather_unknown.
Qed.

End WeatherLookup.

(** ** Saving a preference *)

Section PreferenceSave.

(** C3. For every key, value and session state, [save_user_preference]
    writes [value] under the session-state key ["user:" + key] and
    leaves the other keys alone, returns a confirmation dict echoing
    exactly that key and that value, and does not fail: it is a total
    function whose result is never an error result. *)
Theorem save_user_preference_writes_and_confirms
    (key value : string) (tool_context : ToolContext) :
  exists (result : pydict) (tool_context' : ToolContext),
    save_user_preference key value tool_context = (result, tool_context') /\
    state tool_context' = <["user:" +:+ key := value]> (state tool_context) /\
    state tool_context' !! ("user:" +:+ key) = Some value /\
    (forall k, k <> "user:" +:+ key ->
               state tool_context' !! k = state tool_context !! k) /\
    result = {[ "status" := "saved"; "key" := key; "value" := value ]} /\
    result !! "key" = Some key /\
    result !! "value" = Some value /\
    status result <> Some "error" /\
    result !! "error_message" = None.
Proof.
  eexists _, _. split; [reflexivity|]. cbn [state].
  split; [reflexivity|].
  split; [apply lookup_insert_eq|].
  split; [intros k Hk; by apply lookup_insert_ne|].
  split; [reflexivity|].
  repeat split. discriminate.
Qed.

(** C5. Calling [save_user_preference] twice in a row with the same key
    and value gives two equal results, each the confirmation holding the
    status "saved", the key and the value; afterwards the session state
    holds that value under ["user:" + key], and is the state the first
    call left. *)
Theorem save_user_preference_twice
    (key value : string) (tool_context : ToolContext) :
  let first := save_user_preference key value tool_context in
  let second := save_user_preference key value first.2 in
  first.1 = {[ "status" := "saved"; "key" := key; "value" := value ]} /\
  second.1 = {[ "status" := "saved"; "key" := key; "value" := value ]} /\
  first.1 = second.1 /\
  state second.2 !! ("user:" +:+ key) = Some value /\
  state second.2 = <["user:" +:+ key := value]> (state tool_context) /\
  second.2 = first.2.
Proof.
  cbn. split; [reflexivity|]. split; [reflexivity|]. split; [reflexivity|].
  split; [apply lookup_insert_eq|].
  split; [apply insert_insert_eq|].
  f_equal. apply insert_insert_eq.
Qed.

(** C9. The result of [save_user_preference] has the status "saved",
    which is neither "success" nor "error", and holds neither a
    [report] nor an [error_message]; the test [status == "success"] is
    false on it. *)
Theorem save_user_preference_status_saved
    (key value : string) (tool_context : ToolContext) :
  let result := (save_user_preference key value tool_context).1 in
  status result = Some "saved" /\
  status result <> Some "success" /\
  status result <> Some "error" /\
  result !! "report" = None /\
  result !! "error_message" = None /\
  is_success result = false.
Proof. cbn. repeat split; discriminate. Qed.

End PreferenceSave.

(** ** The three tools together *)

Section AllTools.
Variable lower : string -> string.

Lemma success_result_fields (report : string) :
  one_of_report_or_error {[ "status" := "success"; "report" := report ]}.
Proof. left. split; [by eexists | reflexivity]. Qed.

Lemma error_result_fields (message : string) :
  one_of_report_or_error {[ "status" := "error"; "error_message" := message ]}.
Proof. right. split; [reflexivity | by eexists]. Qed.

Lemma get_current_time_fields (now : string -> datetime) (city : string) :
  is_Some (status (get_current_time lower now city)) /\
  one_of_report_or_error (get_current_time lower now city).
Proof.
  destruct (get_current_time_cases lower now city)
    as [(_ & tz_id & _ & ->)|(_ & ->)].
  - split; [by eexists | apply success_result_fields].
  - split; [by eexists | apply error_result_fields].
Qed.

Lemma get_weather_fields (city : string) :
  is_Some (status (get_weather lower city)) /\
  one_of_report_or_error (get_weather lower city).
Proof.
  unfold get_weather.
  destruct (truthy (mock_weather !! lower city)) as [report|].
  - split; [by eexists | apply success_result_fields].
  - split; [by eexists | apply error_result_fields].
Qed.

(** C4, as the code has it. The result of [get_current_time] and of
    [get_weather] holds [status] and exactly one of [report] and
    [error_message]; the result of [save_user_preference] holds
    [status], [key] and [value], and neither of the two. *)
Theorem tool_result_fields
    (now : string -> datetime) (c : tool_call) (tool_context : ToolContext) :
  let result := (invoke lower now c tool_context).1 in
  is_Some (status result) /\
  match c with
  | call_get_current_time _ | call_get_weather _ => one_of_report_or_error result
  | call_save_user_preference key value =>
      result !! "key" = Some key /\ result !! "value" = Some value /\
      result !! "report" = None /\ result !! "error_message" = None
  end.
Proof.
  destruct c as [city|city|key value]; cbn [invoke fst].
  - apply get_current_time_fields.
  - apply get_weather_fields.
  - split; [by eexists | repeat split].
Qed.

(** C8, as the code has it. Two calls of a tool with the same arguments
    and the same session state, made when the clock reads [now1] and
    when it reads [now2], return the same result and leave the same
    state if the tool is [get_weather] or [save_user_preference], or if
    the two readings of the clock are the same. *)
Theorem tools_deterministic_up_to_clock
    (now1 now2 : string -> datetime) (c : tool_call) (tool_context : ToolContext) :
  (forall tz_id, now1 tz_id = now2 tz_id) \/
  (forall city, c <> call_get_current_time city) ->
  invoke lower now1 c tool_context = invoke lower now2 c tool_context.
Proof.
  intros H. destruct c as [city|city|key value]; cbn [invoke]; [|reflexivity..].
  destruct H as [Hsame|Hother]; [|by destruct (Hother city)].
  f_equal. unfold get_current_time.
  destruct (truthy (timezone_map !! lower city)) as [tz_id|]; [|reflexivity].
  by rewrite Hsame.
Qed.

(** C10. Whenever [get_weather] succeeds on a city, [get_current_time]
    succeeds on it too; the converse fails: on "Paris" the time lookup
    succeeds and the weather lookup returns an error. *)
Theorem get_weather_success_implies_get_current_time_success
    (now : string -> datetime) (city : string) :
  status (get_weather lower city) = Some "success" ->
  status (get_current_time lower now city) = Some "success" /\
  (status (get_current_time ascii_lower now "Paris") = Some "success" /\
   status (get_weather ascii_lower "Paris") = Some "error").
Proof.
  intros Hw. split.
  - unfold get_weather in Hw.
    destruct (truthy (mock_weather !! lower city)) as [report|] eqn:Ht;
      [|discriminate Hw].
    apply truthy_Some in Ht as [Hl _].
    apply mock_weather_Some, weather_cities_supported in Hl.
    destruct (get_current_time_cases lower now city)
      as [(_ & tz_id & _ & ->)|(Hout & _)]; [reflexivity | done].
  - split.
    + rewrite (get_current_time_success ascii_lower now "Paris" "Europe/Paris");
        [reflexivity | vm_compute; reflexivity | discriminate].
    + rewrite (get_weather_error ascii_lower "Paris");
        [reflexivity | vm_compute; reflexivity].
Qed.

End AllTools.

(** C4, as stated, fails on [save_user_preference]: its result holds
    neither [report] nor [error_message]. *)
Lemma save_user_preference_neither_field :
  ~ one_of_report_or_error
      (invoke ascii_lower afternoon
         (call_save_user_preference "units" "metric") empty_context).1.
Proof. intros [[[x Hx] _]|[_ [x Hx]]]; vm_compute in Hx; discriminate Hx. Qed.

(** C8, as stated, fails on [get_current_time]: with the same argument and
    the same session state, a call in the afternoon and a call in the
    evening return different results. *)
Lemma get_current_time_depends_on_clock :
  invoke ascii_lower afternoon (call_get_current_time "Tokyo") empty_context <>
  invoke ascii_lower evening (call_get_current_time "Tokyo") empty_context.
Proof.
  intros H. apply (f_equal (fun r => r.1 !! "report")) in H.
  vm_compute in H. discriminate H.
Qed.

Section TimestampFields.
Local Open Scope Z_scope.

(** The timestamp of a well-formed reading with a year of four digits,
    field by field. *)
Lemma strftime_fields (dt : datetime) :
  reading_ok dt = true ->
  strftime "%Y-%m-%d %H:%M:%S %Z" dt =
  low_digits 4 (year dt) +:+ "-" +:+ low_digits 2 (month dt) +:+ "-" +:+
  low_digits 2 (day dt) +:+ " " +:+ low_digits 2 (hour dt) +:+ ":" +:+
  low_digits 2 (minute dt) +:+ ":" +:+ low_digits 2 (second dt) +:+ " " +:+
  tzname dt.
Proof.
  intros Hok. apply reading_ok_ranges in Hok.
  destruct Hok as (Hy & Hm & Hd & Hh & Hmi & Hs).
  rewrite strftime_unfold.
  rewrite str_of_int_four_digits by lia.
  rewrite !(zfill_str_of_int 1) by (change (10 ^ Z.of_nat 2) with 100; lia).
  reflexivity.
Qed.

End TimestampFields.

(** C6. On "Tokyo", [get_current_time] succeeds with the reading of the
    clock in the zone Asia/Tokyo: the report ends with the year, month,
    day, hour, minute and second of that reading and its zone
    abbreviation, in the documented shape, when the reading is
    well-formed with a year of four digits; at 15:05:00 on 4 November
    2026 in Tokyo it is "Current time in Tokyo: 2026-11-04 15:05:00 JST".
    [get_weather] succeeds with a report containing
    "Partly cloudy, 28°C (82°F)". On "Berlin" both return the status
    "error". *)
Theorem tokyo_succeeds_berlin_fails (now : string -> datetime) :
  get_current_time ascii_lower now "Tokyo" =
    {[ "status" := "success";
       "report" := "Current time in Tokyo: "
                   +:+ strftime "%Y-%m-%d %H:%M:%S %Z" (now "Asia/Tokyo") ]} /\
  (reading_ok (now "Asia/Tokyo") = true ->
   let reading := now "Asia/Tokyo" in
   strftime "%Y-%m-%d %H:%M:%S %Z" reading =
     low_digits 4 (year reading) +:+ "-" +:+
     low_digits 2 (month reading) +:+ "-" +:+
     low_digits 2 (day reading) +:+ " " +:+
     low_digits 2 (hour reading) +:+ ":" +:+
     low_digits 2 (minute reading) +:+ ":" +:+
     low_digits 2 (second reading) +:+ " " +:+ tzname reading /\
   timestamp_format (tzname reading)
     (strftime "%Y-%m-%d %H:%M:%S %Z" reading) = true) /\
  get_current_time ascii_lower afternoon "Tokyo" =
    {[ "status" := "success";
       "report" := "Current time in Tokyo: 2026-11-04 15:05:00 JST" ]} /\
  (exists report,
     get_weather ascii_lower "Tokyo" =
       {[ "status" := "success"; "report" := report ]} /\
     contains "Partly cloudy, 28°C (82°F)" report) /\
  status (get_current_time ascii_lower now "Berlin") = Some "error" /\
  status (get_weather ascii_lower "Berlin") = Some "error".
Proof.
  assert (Hzone : timezone_map !! ascii_lower "Tokyo" = Some "Asia/Tokyo")
    by (vm_compute; reflexivity).
  split; [|split; [|split; [|split; [|split]]]].
  - rewrite (get_current_time_success ascii_lower now "Tokyo" "Asia/Tokyo");
      [reflexivity | exact Hzone | discriminate].
  - intros Hok reading. split.
    + by apply strftime_fields.
    + by apply strftime_timestamp_format.
  - rewrite (get_current_time_success ascii_lower afternoon "Tokyo" "Asia/Tokyo");
      [|exact Hzone | discriminate].
    assert (Hts : strftime "%Y-%m-%d %H:%M:%S %Z" (afternoon "Asia/Tokyo")
                  = "2026-11-04 15:05:00 JST") by (vm_compute; reflexivity).
    rewrite Hts. reflexivity.
  - eexists. split.
    + apply (get_weather_success ascii_lower "Tokyo" "Partly cloudy, 28°C (82°F)");
        [vm_compute; reflexivity | discriminate].
    + exists "Weather in Tokyo: ", "". reflexivity.
  - rewrite (get_current_time_error ascii_lower now "Berlin");
      [reflexivity | vm_compute; reflexivity].
  - rewrite (get_weather_error ascii_lower "Berlin");
      [reflexivity | vm_compute; reflexivity].
Qed.

(** ** The report pipeline *)

Section Rendering.
Variable st : pydict.

Lemma render_segments_literals (s : string) (gs : list segment) :
  render_segments st (literals s ++ gs) = (fun rest => s +:+ rest) <$> render_segments st gs.
Proof.
  induction s as [|c s IH]; cbn [literals app render_segments].
  - by destruct (render_segments st gs).
  - rewrite IH. by destruct (render_segments st gs).
Qed.

Lemma render_segments_placeholder (n v : string) (gs : list segment) :
  st !! n = Some v ->
  render_segments st (Placeholder n :: gs) = (fun rest => v +:+ rest) <$> render_segments st gs.
Proof.
  intros Hn. cbn [render_segments]. rewrite Hn.
  by destruct (render_segments st gs).
Qed.

Lemma render_literal_template (template : string) :
  segments template = literals template -> render st template = Some template.
Proof.
  intros Hg. unfold render. rewrite Hg.
  rewrite <- (app_nil_r (literals template)), render_segments_literals.
  cbn. by rewrite string_app_nil_r.
Qed.
End Rendering.

Section Pipeline.
Variable llm : string -> string -> option string.

Lemma writer_instruction_segments :
  exists s1 s2 s3 : string,
    referenced_keys writer_agent = ["research_findings"; "data_insights"] /\
    forall st : pydict,
      rendered_instruction writer_agent st =
      render_segments st
        (literals s1 ++ Placeholder "research_findings" ::
         literals s2 ++ Placeholder "data_insights" :: literals s3).
Proof.
  exists "You are a professional writer. Using the research findings
from ", " and data insights from ", ",
write a well-structured, engaging summary. Include an introduction,
key points, and conclusion.".
  split; [vm_compute; reflexivity|].
  intros st. unfold rendered_instruction, writer_agent, render.
  replace (segments _) with
    (literals "You are a professional writer. Using the research findings
from " ++ Placeholder "research_findings" ::
     literals " and data insights from " ++ Placeholder "data_insights" ::
     literals ",
write a well-structured, engaging summary. Include an introduction,
key points, and conclusion.") by (vm_compute; reflexivity).
  reflexivity.
Qed.

(** What the writer reads once both slots are filled. *)
Lemma writer_instruction_rendered (st : pydict) (research data : string) :
  st !! "research_findings" = Some research ->
  st !! "data_insights" = Some data ->
  exists text,
    rendered_instruction writer_agent st = Some text /\
    contains research text /\ contains data text.
Proof.
  intros Hr Hd.
  destruct writer_instruction_segments as (s1 & s2 & s3 & _ & ->).
  rewrite render_segments_literals, (render_segments_placeholder _ _ _ _ Hr).
  rewrite render_segments_literals, (render_segments_placeholder _ _ _ _ Hd).
  rewrite <- (app_nil_r (literals s3)), render_segments_literals.
  cbn [render_segments fmap option_fmap option_map].
  eexists. split; [reflexivity|]. rewrite string_app_nil_r. split.
  - apply contains_intro.
  - exists (s1 +:+ research +:+ s2), s3. by rewrite !string_app_assoc.
Qed.

Lemma outputs_LlmAgent (name model description instruction : string)
    (output_key : option string) (st : pydict) :
  outputs llm (LlmAgent name model description instruction output_key) st =
  text ← rendered_instruction
           (LlmAgent name model description instruction output_key) st;
  response ← llm name text;
  Some (match output_key with Some k => [(k, response)] | None => [] end).
Proof. reflexivity. Qed.

Lemma outputs_ParallelAgent_two (name : string) (a b : agent) (st : pydict) :
  outputs llm (ParallelAgent name [a; b]) st =
  wa ← outputs llm a st; wb ← outputs llm b st; Some (wa ++ wb).
Proof.
  cbn [outputs]. destruct (outputs llm a st) as [wa|]; [|reflexivity].
  destruct (outputs llm b st) as [wb|]; [|reflexivity].
  cbn. by rewrite app_nil_r.
Qed.

Lemma outputs_SequentialAgent_two (name description : string) (a b : agent)
    (st : pydict) :
  outputs llm (SequentialAgent name description [a; b]) st =
  wa ← outputs llm a st; wb ← outputs llm b (write_all wa st); Some (wa ++ wb).
Proof.
  cbn [outputs]. destruct (outputs llm a st) as [wa|]; [|reflexivity].
  cbn [mbind option_bind].
  destruct (outputs llm b (write_all wa st)) as [wb|]; [|reflexivity].
  cbn. by rewrite app_nil_r.
Qed.

(** A successful run of the parallel group fills both slots with the
    responses of the two specialists. *)
Lemma parallel_gather_run (st st1 : pydict) :
  run llm parallel_gather st = Some st1 ->
  exists research data,
    outputs llm research_agent st = Some [("research_findings", research)] /\
    outputs llm data_agent st = Some [("data_insights", data)] /\
    outputs llm parallel_gather st =
      Some [("research_findings", research); ("data_insights", data)] /\
    st1 = <["data_insights" := data]> (<["research_findings" := research]> st).
Proof.
  unfold run, parallel_gather. rewrite outputs_ParallelAgent_two.
  unfold research_agent, data_agent. rewrite !outputs_LlmAgent.
  cbn [rendered_instruction].
  rewrite !render_literal_template by (vm_compute; reflexivity).
  cbn [mbind option_bind].
  destruct (llm "Researcher" _) as [research|]; [|discriminate].
  destruct (llm "DataAnalyst" _) as [data|]; [|discriminate].
  cbn [app write_all foldl fst snd]. intros [= <-]. by exists research, data.
Qed.


Lemma bind_Some_l {A B : Type} (f : A -> option B) (x : A) : Some x ≫= f = f x.
Proof. reflexivity. Qed.

Lemma write_all_nil (st : pydict) : write_all [] st = st.
Proof. reflexivity. Qed.

Lemma write_all_cons (k v : string) (w : list (string * string)) (st : pydict) :
  write_all ((k, v) :: w) st = write_all w (<[k := v]> st).
Proof. reflexivity. Qed.

Lemma outputs_writer_agent (st : pydict) :
  outputs llm writer_agent st =
  text ← rendered_instruction writer_agent st;
  response ← llm "Writer" text; Some [("final_report", response)].
Proof. unfold writer_agent. apply outputs_LlmAgent. Qed.

Lemma outputs_root_agent (st : pydict) :
  outputs llm root_agent st =
  wa ← outputs llm parallel_gather st;
  wb ← outputs llm writer_agent (write_all wa st); Some (wa ++ wb).
Proof. apply outputs_SequentialAgent_two. Qed.

(** The pipeline hands the writer the instruction rendered against the
    state the parallel group left. *)
Lemma root_agent_run (st : pydict) (research data text : string) :
  outputs llm parallel_gather st =
    Some [("research_findings", research); ("data_insights", data)] ->
  rendered_instruction writer_agent
    (<["data_insights" := data]> (<["research_findings" := research]> st)) = Some text ->
  run llm root_agent st =
    (report ← llm "Writer" text;
     Some (<["final_report" := report]>
             (<["data_insights" := data]> (<["research_findings" := research]> st)))).
Proof.
  intros Hpg Ht.
  unfold run. rewrite outputs_root_agent, Hpg, bind_Some_l.
  rewrite !write_all_cons, write_all_nil, outputs_writer_agent, Ht, bind_Some_l.
  destruct (llm "Writer" text) as [report|]; [|reflexivity].
  rewrite !bind_Some_l. cbn [app].
  by rewrite !write_all_cons, write_all_nil.
Qed.

(** Each stage of the pipeline refers only to slots of earlier stages. *)
Lemma root_agent_scoped (i : nat) (stage : agent) (key : string) :
  sub_agents root_agent !! i = Some stage ->
  key ∈ referenced_keys stage ->
  exists (j : nat) (earlier : agent),
    (j < i)%nat /\ sub_agents root_agent !! j = Some earlier /\
    key ∈ output_keys earlier.
Proof.
  intros Hi Hkey.
  destruct i as [|[|i]]; cbn in Hi; [| |discriminate Hi]; injection Hi as <-.
  - vm_compute in Hkey. by apply elem_of_nil in Hkey.
  - exists 0%nat, parallel_gather. split; [lia|]. split; [reflexivity|].
    vm_compute in Hkey |- *. exact Hkey.
Qed.

(** C7. In [ReportPipeline] every placeholder of a stage's instruction
    names an [output_key] produced by a strictly earlier stage, the
    placeholders of the writer being [{research_findings}] and
    [{data_insights}]; and whenever both upstream agents succeeded, the
    writer's rendered instruction contains the text of both of their
    outputs, and is the instruction the pipeline hands to the writer's
    model. *)
Theorem report_pipeline_writer_reads_upstream (st st1 : pydict) :
  run llm parallel_gather st = Some st1 ->
  (forall (i : nat) (stage : agent) (key : string),
     sub_agents root_agent !! i = Some stage ->
     key ∈ referenced_keys stage ->
     exists (j : nat) (earlier : agent),
       (j < i)%nat /\ sub_agents root_agent !! j = Some earlier /\
       key ∈ output_keys earlier) /\
  referenced_keys writer_agent = ["research_findings"; "data_insights"] /\
  exists research data text : string,
    outputs llm research_agent st = Some [("research_findings", research)] /\
    outputs llm data_agent st = Some [("data_insights", data)] /\
    st1 !! "research_findings" = Some research /\
    st1 !! "data_insights" = Some data /\
    rendered_instruction writer_agent st1 = Some text /\
    contains research text /\
    contains data text /\
    run llm root_agent st =
      (report ← llm "Writer" text; Some (<["final_report" := report]> st1)).
Proof.
  intros Hrun. split; [|split].
  - apply root_agent_scoped.
  - destruct writer_instruction_segments as (_ & _ & _ & H & _). exact H.
  - destruct (parallel_gather_run _ _ Hrun)
      as (research & data & Hr & Hd & Hpg & ->).
    assert (Hlr : (<["data_insights" := data]>
                     (<["research_findings" := research]> st) : pydict)
                  !! "research_findings" = Some research).
    { rewrite lookup_insert_ne by discriminate. apply lookup_insert_eq. }
    assert (Hld : (<["data_insights" := data]>
                     (<["research_findings" := research]> st) : pydict)
                  !! "data_insights" = Some data) by apply lookup_insert_eq.
    destruct (writer_instruction_rendered _ _ _ Hlr Hld)
      as (text & Ht & Hcr & Hcd).
    exists research, data, text.
    split; [exact Hr|]. split; [exact Hd|]. split; [exact Hlr|].
    split; [exact Hld|]. split; [exact Ht|]. split; [exact Hcr|].
    split; [exact Hcd|]. by apply root_agent_run.
Qed.

End Pipeline.

(** ** The theorems at sample inputs *)

Lemma afternoon_clock_ok (tz_id : string) : reading_ok (afternoon tz_id) = true.
Proof.
  unfold afternoon, clock_at, zone_of.
  repeat (destruct (String.eqb tz_id _); [reflexivity|]). reflexivity.
Defined.

(** C1 on "Tokyo" with the afternoon clock. *)
Lemma get_current_time_supported_or_error_witness :
  (forall tz_id, reading_ok (afternoon tz_id) = true) /\
  ascii_lower "Tokyo" ∈ supported_cities /\
  get_current_time ascii_lower afternoon "Tokyo" =
    {[ "status" := "success";
       "report" := "Current time in Tokyo: 2026-11-04 15:05:00 JST" ]}.
Proof.
  assert (Hcity : ascii_lower "Tokyo" ∈ supported_cities).
  { apply (bool_decide_unpack _). vm_compute. exact I. }
  split; [exact afternoon_clock_ok|]. split; [exact Hcity|].
  destruct (get_current_time_supported_or_error
              ascii_lower afternoon "Tokyo" afternoon_clock_ok) as [Hs _].
  destruct (Hs Hcity) as (tz_id & timestamp & Hl & Hr & Hts & _).
  vm_compute in Hl. injection Hl as <-.
  rewrite Hr, Hts. vm_compute. reflexivity.
Defined.

(** C7 with the sample model on an empty session. *)
Lemma report_pipeline_writer_reads_upstream_witness :
  run echo_llm parallel_gather ∅ = Some gathered_state /\
  exists text : string,
    rendered_instruction writer_agent gathered_state = Some text /\
    contains "Notes of Researcher." text /\
    contains "Notes of DataAnalyst." text.
Proof.
  assert (Hrun : run echo_llm parallel_gather ∅ = Some gathered_state)
    by (vm_compute; reflexivity).
  split; [exact Hrun|].
  destruct (report_pipeline_writer_reads_upstream echo_llm ∅ gathered_state Hrun)
    as (_ & _ & research & data & text & Hr & Hd & _ & _ & Ht & Hcr & Hcd & _).
  vm_compute in Hr. injection Hr as <-.
  vm_compute in Hd. injection Hd as <-.
  exists text. split; [exact Ht|]. split; [exact Hcr | exact Hcd].
Defined.

(** C8 on the weather of "London", in the afternoon and in the evening. *)
Lemma tools_deterministic_up_to_clock_witness :
  (forall city, call_get_weather "London" <> call_get_current_time city) /\
  invoke ascii_lower afternoon (call_get_weather "London") empty_context =
  invoke ascii_lower evening (call_get_weather "London") empty_context.
Proof.
  assert (H : forall city, call_get_weather "London" <> call_get_current_time city)
    by (intros city; discriminate).
  split; [exact H|].
  apply tools_deterministic_up_to_clock. right. exact H.
Defined.

(** C10 on "London". *)
Lemma get_weather_success_implies_get_current_time_success_witness :
  status (get_weather ascii_lower "London") = Some "success" /\
  status (get_current_time ascii_lower afternoon "London") = Some "success".
Proof.
  assert (H : status (get_weather ascii_lower "London") = Some "success")
    by (vm_compute; reflexivity).
  split; [exact H|].
  apply (get_weather_success_implies_get_current_time_success
           ascii_lower afternoon "London" H).
Defined.

(* ===================================================================== *)
(** * Part III: further properties of the templates                       *)
(* ===================================================================== *)

Import tool_runs.

(** ** Status and payload of the two lookups *)

Section LookupResults.
Variable lower : string -> string.
Variable now : string -> datetime.

Lemma get_weather_cases (city : string) :
  (lower city ∈ weather_cities /\
   exists report, mock_weather !! lower city = Some report /\
     get_weather lower city =
       {[ "status" := "success";
          "report" := "Weather in " +:+ city +:+ ": " +:+ report ]}) \/
  ((lower city ∉ weather_cities) /\
   get_weather lower city =
     {[ "status" := "error";
        "error_message" := "Weather data unavailable for '" +:+ city +:+ "'." ]}).
Proof.
  destruct (decide (lower city ∈ weather_cities)) as [Hin|Hout].
  - left. split; [done|].
    destruct (mock_weather_known _ Hin) as (report & Hl & Ht).
    exists report. split; [done|].
    apply get_weather_success; [done|]. intros ->. discriminate Ht.
  - right. split; [done|].
    by apply get_weather_error, mock_weather_unknown.
Qed.

Lemma success_tracks_payload (report : string) :
  status_tracks_payload {[ "status" := "success"; "report" := report ]}.
Proof.
  split; [by left|]. split; split.
  - intros _. split; [by eexists | reflexivity].
  - reflexivity.
  - discriminate.
  - intros [[x Hx] _]. discriminate Hx.
Qed.

Lemma error_tracks_payload (message : string) :
  status_tracks_payload {[ "status" := "error"; "error_message" := message ]}.
Proof.
  split; [by right|]. split; split.
  - discriminate.
  - intros [[x Hx] _]. discriminate Hx.
  - intros _. split; [by eexists | reflexivity].
  - reflexivity.
Qed.

(** X1. In a result of [get_current_time] or [get_weather] the status is
    "success" or "error"; it is "success" exactly when [report] is present
    and [error_message] is not, and "error" exactly when [error_message]
    is present and [report] is not. *)
Theorem lookup_status_tracks_payload (city : string) :
  status_tracks_payload (get_current_time lower now city) /\
  status_tracks_payload (get_weather lower city).
Proof.
  split.
  - destruct (get_current_time_cases lower now city)
      as [(_ & tz_id & _ & ->)|(_ & ->)].
    + apply success_tracks_payload.
    + apply error_tracks_payload.
  - destruct (get_weather_cases city) as [(_ & report & _ & ->)|(_ & ->)].
    + apply success_tracks_payload.
    + apply error_tracks_payload.
Qed.

End LookupResults.

(** ** Spelling of the city *)

Section Spelling.

Lemma lower_upper_char (c : ascii) : lower_char (upper_char c) = lower_char c.
Proof. destruct c as [[] [] [] [] [] [] [] []]; reflexivity. Qed.

Lemma lower_lower_char (c : ascii) : lower_char (lower_char c) = lower_char c.
Proof. destruct c as [[] [] [] [] [] [] [] []]; reflexivity. Qed.

Lemma lower_char_letter (c : ascii) :
  is_ascii_letter (lower_char c) = is_ascii_letter c.
Proof. destruct c as [[] [] [] [] [] [] [] []]; reflexivity. Qed.

Lemma ascii_lower_upper (s : string) : ascii_lower (ascii_upper s) = ascii_lower s.
Proof.
  induction s as [|c s IH]; [reflexivity|].
  cbn [ascii_upper ascii_lower]. by rewrite lower_upper_char, IH.
Qed.

Lemma ascii_lower_idempotent (s : string) : ascii_lower (ascii_lower s) = ascii_lower s.
Proof.
  induction s as [|c s IH]; [reflexivity|].
  cbn [ascii_lower]. by rewrite lower_lower_char, IH.
Qed.

Lemma ascii_lower_length (s : string) :
  String.length (ascii_lower s) = String.length s.
Proof.
  induction s as [|c s IH]; [reflexivity|].
  cbn [ascii_lower String.length]. by rewrite IH.
Qed.

Lemma ascii_lower_head (s : string) :
  head_char (ascii_lower s) = lower_char <$> head_char s.
Proof. by destruct s. Qed.

Lemma ascii_lower_last (s : string) :
  last_char (ascii_lower s) = lower_char <$> last_char s.
Proof.
  induction s as [|c s IH]; [reflexivity|].
  destruct s as [|c' s]; [reflexivity|].
  exact IH.
Qed.

(** The keys of [timezone_map] begin and end with a letter and have
    five to eight characters. *)
Lemma supported_city_shape (k : string) :
  k ∈ supported_cities ->
  exists first last : ascii,
    head_char k = Some first /\ last_char k = Some last /\
    is_ascii_letter first = true /\ is_ascii_letter last = true /\
    5 <= String.length k <= 8.
Proof.
  unfold supported_cities. intros H.
  repeat (apply elem_of_cons in H as [->|H]);
    [eexists _, _; repeat split; cbn; lia ..|].
  by apply elem_of_nil in H.
Qed.

Lemma get_current_time_success_supported
    (lower : string -> string) (now : string -> datetime) (city : string) :
  status (get_current_time lower now city) = Some "success" ->
  lower city ∈ supported_cities.
Proof.
  intros Hs.
  destruct (get_current_time_cases lower now city) as [(Hin & _)|(_ & Hr)];
    [done|].
  rewrite Hr in Hs. discriminate Hs.
Qed.

Lemma get_weather_success_known (lower : string -> string) (city : string) :
  status (get_weather lower city) = Some "success" ->
  lower city ∈ weather_cities.
Proof.
  intros Hs.
  destruct (get_weather_cases lower city) as [(Hin & _)|(_ & Hr)]; [done|].
  rewrite Hr in Hs. discriminate Hs.
Qed.

(** X2. The lookups ignore the case of ASCII letters. Where [lower] is
    ASCII lower-casing on a city and on a spelling of it, as [str.lower]
    is on ASCII strings, and the spelling is the all-lowercase or the
    all-uppercase one, the spelling reaches the same entries of
    [timezone_map] and [mock_weather] as the city and gets the same
    status from both lookups. *)
Theorem lookups_ignore_ascii_case
    (lower : string -> string) (now : string -> datetime)
    (city spelling : string) :
  spelling = ascii_lower city \/ spelling = ascii_upper city ->
  lower city = ascii_lower city ->
  lower spelling = ascii_lower spelling ->
  timezone_map !! lower spelling = timezone_map !! lower city /\
  mock_weather !! lower spelling = mock_weather !! lower city /\
  status (get_current_time lower now spelling) =
    status (get_current_time lower now city) /\
  status (get_weather lower spelling) = status (get_weather lower city).
Proof.
  intros Hsp Hc Hs.
  assert (Hl : lower spelling = lower city).
  { rewrite Hs, Hc. destruct Hsp as [-> | ->];
      [apply ascii_lower_idempotent | apply ascii_lower_upper]. }
  split; [by rewrite Hl|]. split; [by rewrite Hl|].
  unfold get_current_time, get_weather. rewrite Hl.
  split.
  - by destruct (truthy (timezone_map !! lower city)).
  - by destruct (truthy (mock_weather !! lower city)).
Qed.

(** X3. The lookups do not trim or otherwise clean the city. Where
    [lower] is ASCII lower-casing on the city, as [str.lower] is on ASCII
    strings: when [get_current_time] or [get_weather] succeeds, the city
    as given begins and ends with an ASCII letter and has five to eight
    characters; the empty name and a name with a blank, a line break or a
    punctuation mark in front or behind are not found. *)
Theorem successful_lookup_city_shape
    (lower : string -> string) (now : string -> datetime) (city : string) :
  lower city = ascii_lower city ->
  status (get_current_time lower now city) = Some "success" \/
  status (get_weather lower city) = Some "success" ->
  exists first last : ascii,
    head_char city = Some first /\ last_char city = Some last /\
    is_ascii_letter first = true /\ is_ascii_letter last = true /\
    5 <= String.length city <= 8.
Proof.
  intros Hc Hs.
  assert (Hin : ascii_lower city ∈ supported_cities).
  { rewrite <- Hc. destruct Hs as [Hs|Hs].
    - by apply get_current_time_success_supported in Hs.
    - by apply weather_cities_supported, get_weather_success_known. }
  destruct (supported_city_shape _ Hin) as (f & l & Hf & Hl & Hfl & Hll & Hlen).
  rewrite ascii_lower_head in Hf. rewrite ascii_lower_last in Hl.
  rewrite ascii_lower_length in Hlen.
  destruct (head_char city) as [first|]; [|discriminate Hf].
  destruct (last_char city) as [last|]; [|discriminate Hl].
  injection Hf as <-. injection Hl as <-.
  rewrite lower_char_letter in Hfl, Hll.
  by exists first, last.
Qed.

End Spelling.

(** ** The time lookup and the clock *)

Section ClockReadings.
Local Open Scope Z_scope.

Lemma timezone_map_zone (c tz_id : string) :
  timezone_map !! c = Some tz_id -> tz_id ∈ zone_ids.
Proof.
  intros H. apply elem_of_list_to_map_2 in H.
  unfold zone_ids.
  repeat (apply elem_of_cons in H as [[= -> ->]|H]);
    [rewrite !elem_of_cons; tauto ..|].
  by apply elem_of_nil in H.
Qed.

(** X4. [get_current_time] reads the clock in no zone but the five of
    [timezone_map], and not at all for a city it does not know: two
    clocks that agree on the five zones give the same result for every
    city, and any two clocks give the same result for an unknown city. *)
Theorem get_current_time_reads_five_zones
    (lower : string -> string) (now1 now2 : string -> datetime) (city : string) :
  (lower city ∉ supported_cities) \/
  (forall tz_id, tz_id ∈ zone_ids -> now1 tz_id = now2 tz_id) ->
  get_current_time lower now1 city = get_current_time lower now2 city.
Proof.
  intros H. unfold get_current_time.
  destruct (truthy (timezone_map !! lower city)) as [tz_id|] eqn:Ht;
    [|reflexivity].
  apply truthy_Some in Ht as [Hl _].
  destruct H as [Hout|Hsame].
  - apply timezone_map_unsupported in Hout. congruence.
  - by rewrite (Hsame tz_id (timezone_map_zone _ _ Hl)).
Qed.

Lemma string_snoc_inj (s1 s2 : string) (c1 c2 : ascii) :
  s1 +:+ String c1 "" = s2 +:+ String c2 "" -> s1 = s2 /\ c1 = c2.
Proof.
  revert s2. induction s1 as [|x s1 IH]; intros [|y s2] H.
  - by injection H as ->.
  - rewrite string_app_nil_l, string_app_cons in H. injection H as -> H.
    destruct s2; discriminate H.
  - rewrite string_app_nil_l, string_app_cons in H. injection H as -> H.
    destruct s1; discriminate H.
  - rewrite !string_app_cons in H. injection H as -> H.
    destruct (IH _ H) as [-> ->]. done.
Qed.

Lemma string_app_inj_length (a1 a2 b1 b2 : string) :
  String.length a1 = String.length a2 ->
  a1 +:+ b1 = a2 +:+ b2 -> a1 = a2 /\ b1 = b2.
Proof.
  revert a2. induction a1 as [|x a1 IH]; intros [|y a2] Hlen H;
    try discriminate Hlen.
  - done.
  - rewrite !string_app_cons in H. injection H as -> H.
    injection Hlen as Hlen. destruct (IH _ Hlen H) as [-> ->]. done.
Qed.

Lemma low_digits_length (w : nat) (n : Z) : String.length (low_digits w n) = w.
Proof.
  revert n. induction w as [|w IH]; intros n; [reflexivity|].
  cbn [low_digits]. rewrite string_app_length, IH. cbn [String.length]. lia.
Qed.

Lemma digit_char_inj (a b : Z) :
  0 <= a < 10 -> 0 <= b < 10 -> digit_char a = digit_char b -> a = b.
Proof.
  intros Ha Hb H.
  assert (Hcases : forall x, 0 <= x < 10 ->
            x = 0 \/ x = 1 \/ x = 2 \/ x = 3 \/ x = 4 \/
            x = 5 \/ x = 6 \/ x = 7 \/ x = 8 \/ x = 9) by (intros; lia).
  destruct (Hcases a Ha) as [->|[->|[->|[->|[->|[->|[->|[->|[->| ->]]]]]]]]];
  destruct (Hcases b Hb) as [->|[->|[->|[->|[->|[->|[->|[->|[->| ->]]]]]]]]];
    first [reflexivity | discriminate H].
Qed.

Lemma low_digits_inj (w : nat) (a b : Z) :
  0 <= a < 10 ^ Z.of_nat w -> 0 <= b < 10 ^ Z.of_nat w ->
  low_digits w a = low_digits w b -> a = b.
Proof.
  revert a b. induction w as [|w IH]; intros a b Ha Hb H.
  - change (10 ^ Z.of_nat 0) with 1 in *. lia.
  - cbn [low_digits] in H. apply string_snoc_inj in H as [Hhigh Hlow].
    assert (Hpow : 10 ^ Z.of_nat (S w) = 10 * 10 ^ Z.of_nat w).
    { rewrite Nat2Z.inj_succ, Z.pow_succ_r by lia. reflexivity. }
    rewrite Hpow in Ha, Hb.
    assert (Ha' : 0 <= a / 10 < 10 ^ Z.of_nat w).
    { split; [apply Z.div_pos; lia | apply Z.div_lt_upper_bound; lia]. }
    assert (Hb' : 0 <= b / 10 < 10 ^ Z.of_nat w).
    { split; [apply Z.div_pos; lia | apply Z.div_lt_upper_bound; lia]. }
    apply (IH _ _ Ha' Hb') in Hhigh.
    apply digit_char_inj in Hlow; [|apply Z.mod_pos_bound; lia ..].
    rewrite (Z.div_mod a 10), (Z.div_mod b 10) by lia. congruence.
Qed.

Lemma low_digits_field_inj (w : nat) (a b : Z) (sep : ascii) (r1 r2 : string) :
  0 <= a < 10 ^ Z.of_nat w -> 0 <= b < 10 ^ Z.of_nat w ->
  low_digits w a +:+ String sep r1 = low_digits w b +:+ String sep r2 ->
  a = b /\ r1 = r2.
Proof.
  intros Ha Hb H.
  apply string_app_inj_length in H as [Hd Hr];
    [|by rewrite !low_digits_length].
  split; [by apply (low_digits_inj w) | by injection Hr].
Qed.

(** Well-formed readings with years of four digits that have the same
    timestamp are the same reading. *)
Lemma strftime_injective (dt1 dt2 : datetime) :
  reading_ok dt1 = true -> reading_ok dt2 = true ->
  strftime "%Y-%m-%d %H:%M:%S %Z" dt1 = strftime "%Y-%m-%d %H:%M:%S %Z" dt2 ->
  dt1 = dt2.
Proof.
  intros Hok1 Hok2 H.
  rewrite !strftime_fields in H by done.
  apply reading_ok_ranges in Hok1, Hok2.
  destruct Hok1 as (Hy1 & Hm1 & Hd1 & Hh1 & Hmi1 & Hs1).
  destruct Hok2 as (Hy2 & Hm2 & Hd2 & Hh2 & Hmi2 & Hs2).
  destruct dt1 as [y1 m1 d1 h1 mi1 s1 z1], dt2 as [y2 m2 d2 h2 mi2 s2 z2].
  cbn [year month day hour minute second tzname] in *.
  repeat rewrite (string_app_cons _ "" _), string_app_nil_l in H.
  apply low_digits_field_inj in H as [-> H];
    [|change (10 ^ Z.of_nat 4) with 10000; lia ..].
  do 5 (apply low_digits_field_inj in H as [-> H];
        [|change (10 ^ Z.of_nat 2) with 100; lia ..]).
  by subst.
Qed.

(** X5. The report of [get_current_time] shows the reading of the clock
    down to the second: for a city the tool knows and two clocks whose
    readings in the city's zone are well-formed with years of four
    digits, the two calls return the same result exactly when the two
    readings agree in year, month, day, hour, minute, second and zone
    abbreviation, the fields a [datetime] of this model has. *)
Theorem get_current_time_result_determines_reading
    (lower : string -> string) (now1 now2 : string -> datetime)
    (city tz_id : string) :
  timezone_map !! lower city = Some tz_id ->
  reading_ok (now1 tz_id) = true ->
  reading_ok (now2 tz_id) = true ->
  (get_current_time lower now1 city = get_current_time lower now2 city <->
   now1 tz_id = now2 tz_id).
Proof.
  intros Hl Hok1 Hok2.
  assert (Hne : tz_id <> "").
  { intros ->. apply timezone_map_zone in Hl. unfold zone_ids in Hl.
    rewrite !elem_of_cons, elem_of_nil in Hl.
    destruct Hl as [Hl|[Hl|[Hl|[Hl|[Hl|[]]]]]]; discriminate Hl. }
  rewrite !(get_current_time_success lower _ city tz_id Hl Hne).
  split; [|by intros ->].
  intros H.
  apply (f_equal (fun r : pydict => r !! "report")) in H.
  rewrite !lookup_insert_ne, !lookup_singleton_eq in H by discriminate.
  injection H as H.
  do 3 apply String.app_inj in H.
  by apply strftime_injective.
Qed.

End ClockReadings.

(** ** Saved preferences over a conversation *)

Section Preferences.
Variable lower : string -> string.
Variable now : string -> datetime.

Lemma user_key_inj (k1 k2 : string) : "user:" +:+ k1 = "user:" +:+ k2 -> k1 = k2.
Proof. apply String.app_inj. Qed.

Lemma prefix_app (p s : string) : String.prefix p (p +:+ s) = true.
Proof.
  induction p as [|a p IH]; [by destruct s|].
  rewrite string_app_cons. cbn [String.prefix].
  by destruct (ascii_dec a a).
Qed.

Lemma user_key_in_namespace (key : string) :
  in_user_namespace ("user:" +:+ key) = true.
Proof. apply prefix_app. Qed.

(** What one call does to the session state. *)
Lemma invoke_state (c : tool_call) (tool_context : ToolContext) :
  state (invoke lower now c tool_context).2 =
  match c with
  | call_save_user_preference key value =>
      <["user:" +:+ key := value]> (state tool_context)
  | call_get_current_time _ | call_get_weather _ => state tool_context
  end.
Proof. by destruct c. Qed.

(** X6. A later save of the same key replaces the earlier one: saving
    [value1] and then [value2] under a key leaves the session state that
    saving [value2] alone leaves. *)
Theorem save_user_preference_overwrites
    (key value1 value2 : string) (tool_context : ToolContext) :
  (save_user_preference key value2
     (save_user_preference key value1 tool_context).2).2 =
  (save_user_preference key value2 tool_context).2.
Proof. cbn. f_equal. apply insert_insert_eq. Qed.

(** X7. Saves of different keys do not disturb each other: in either
    order they leave the same session state, in which each key holds its
    own value. *)
Theorem save_user_preference_distinct_keys_commute
    (key1 value1 key2 value2 : string) (tool_context : ToolContext) :
  key1 <> key2 ->
  let one_two := (save_user_preference key2 value2
                    (save_user_preference key1 value1 tool_context).2).2 in
  let two_one := (save_user_preference key1 value1
                    (save_user_preference key2 value2 tool_context).2).2 in
  one_two = two_one /\
  state one_two !! ("user:" +:+ key1) = Some value1 /\
  state one_two !! ("user:" +:+ key2) = Some value2.
Proof.
  intros Hne. cbn.
  assert (Hk : "user:" +:+ key1 <> "user:" +:+ key2)
    by (intros H; by apply user_key_inj in H).
  split; [f_equal; by apply insert_insert_ne|].
  split; [|apply lookup_insert_eq].
  rewrite lookup_insert_ne by done. apply lookup_insert_eq.
Qed.

(** X8. No sequence of tool calls touches a key outside the [user:]
    namespace: whatever the agent calls and in whatever order, a key that
    does not start with "user:" holds afterwards what it held before. *)
Theorem invoke_all_keeps_other_namespaces
    (calls : list tool_call) (tool_context : ToolContext) (k : string) :
  in_user_namespace k = false ->
  state (invoke_all lower now calls tool_context).2 !! k =
  state tool_context !! k.
Proof.
  intros Hk. revert tool_context.
  induction calls as [|c calls IH]; intros tool_context; [reflexivity|].
  cbn [invoke_all snd]. rewrite IH, invoke_state.
  destruct c as [city|city|key value]; [reflexivity..|].
  apply lookup_insert_ne. intros <-.
  rewrite user_key_in_namespace in Hk. discriminate Hk.
Qed.

(** X9. After any sequence of tool calls, the session state holds under
    ["user:" + key] the value of the last [save_user_preference] for
    [key] in the sequence, and what it held before if there is none. *)
Theorem invoke_all_last_save_wins
    (calls : list tool_call) (tool_context : ToolContext) (key : string) :
  state (invoke_all lower now calls tool_context).2 !! ("user:" +:+ key) =
  match last_saved key calls with
  | Some value => Some value
  | None => state tool_context !! ("user:" +:+ key)
  end.
Proof.
  revert tool_context.
  induction calls as [|c calls IH]; intros tool_context; [reflexivity|].
  cbn [invoke_all snd last_saved]. rewrite IH.
  destruct (last_saved key calls) as [v|]; [reflexivity|].
  rewrite invoke_state.
  destruct c as [city|city|k v]; [reflexivity..|].
  destruct (String.eqb_spec k key) as [->|Hne].
  - apply lookup_insert_eq.
  - apply lookup_insert_ne. intros H. by apply user_key_inj in H.
Qed.

(** X10. No tool reads the session state: the results of a sequence of
    calls are the results the calls have one by one on an empty session,
    whatever was saved before or in between. *)
Theorem invoke_all_results_ignore_state
    (calls : list tool_call) (tool_context : ToolContext) :
  (invoke_all lower now calls tool_context).1 =
  (fun c => (invoke lower now c empty_context).1) <$> calls.
Proof.
  revert tool_context.
  induction calls as [|c calls IH]; intros tool_context; [reflexivity|].
  cbn [invoke_all fst fmap list_fmap]. rewrite IH.
  f_equal. by destruct c.
Qed.

End Preferences.

(** ** The two agent definitions *)

Section AgentDefinitions.
Import pipeline_config.

Lemma contains_between (s sub : string) (i : nat) :
  String.substring 0 i s +:+ sub +:+
    String.substring (i + String.length sub)
      (String.length s - (i + String.length sub)) s = s ->
  contains sub s.
Proof. intros H. eexists _, _. symmetry. exact H. Qed.

(** X11. The agent of [agent_template.py] is bound to the three tools,
    once each, so that every call [invoke] serves goes to a bound tool;
    and its instruction names each bound tool, in single quotes. *)
Theorem root_agent_instruction_names_bound_tools :
  (forall c : tool_call,
     agent_template_root.tool_of_call c
       ∈ agent_template_root.tools agent_template_root.root_agent) /\
  NoDup (agent_template_root.tool_name
           <$> agent_template_root.tools agent_template_root.root_agent) /\
  (forall t : agent_template_root.tool,
     t ∈ agent_template_root.tools agent_template_root.root_agent ->
     contains ("'" +:+ agent_template_root.tool_name t +:+ "'")
       (agent_template_root.instruction agent_template_root.root_agent)).
Proof.
  split; [|split].
  - intros [city|city|key value]; cbn; rewrite !elem_of_cons; tauto.
  - apply (bool_decide_unpack _). vm_compute. exact I.
  - intros [| |] _.
    + apply (contains_between _ _ 101). vm_compute. reflexivity.
    + apply (contains_between _ _ 153). vm_compute. reflexivity.
    + apply (contains_between _ _ 198). vm_compute. reflexivity.
Qed.

(** X12. In the tree of [ReportPipeline] no two agents share a name and
    no two share an [output_key]; every [LlmAgent] uses [MODEL]; and the
    instructions of the two members of [GatherInfo] hold no brace, so
    neither member reads a slot of the session state. *)
Theorem report_pipeline_names_and_slots_distinct :
  NoDup (agent_names root_agent) /\
  NoDup (declared_output_keys root_agent) /\
  (forall m : string, m ∈ agent_models root_agent -> m = MODEL) /\
  (forall instruction : string,
     instruction ∈ agent_instructions parallel_gather ->
     has_brace instruction = false).
Proof.
  split; [apply (bool_decide_unpack _); vm_compute; exact I|].
  split; [apply (bool_decide_unpack _); vm_compute; exact I|].
  split.
  - intros m Hm. cbn in Hm. rewrite !elem_of_cons, elem_of_nil in Hm.
    destruct Hm as [->|[->|[->|[]]]]; reflexivity.
  - intros instruction Hi. cbn in Hi. rewrite !elem_of_cons, elem_of_nil in Hi.
    destruct Hi as [->|[->|[]]]; vm_compute; reflexivity.
Qed.

End AgentDefinitions.

(** ** The further properties at sample inputs *)

(** X2 on "Tokyo" and its all-uppercase spelling. *)
Lemma lookups_ignore_ascii_case_witness :
  "TOKYO" = ascii_upper "Tokyo" /\
  status (get_current_time ascii_lower afternoon "TOKYO") =
    status (get_current_time ascii_lower afternoon "Tokyo") /\
  status (get_weather ascii_lower "TOKYO") =
    status (get_weather ascii_lower "Tokyo").
Proof.
  assert (H : "TOKYO" = ascii_upper "Tokyo") by reflexivity.
  split; [exact H|].
  destruct (lookups_ignore_ascii_case ascii_lower afternoon "Tokyo" "TOKYO"
              (or_intror H) eq_refl eq_refl)
    as (_ & _ & Ht & Hw).
  split; [exact Ht | exact Hw].
Defined.

(** X3 on "Tokyo". *)
Lemma successful_lookup_city_shape_witness :
  status (get_current_time ascii_lower afternoon "Tokyo") = Some "success" /\
  exists first last : ascii,
    head_char "Tokyo" = Some first /\ last_char "Tokyo" = Some last /\
    is_ascii_letter first = true /\ is_ascii_letter last = true /\
    5 <= String.length "Tokyo" <= 8.
Proof.
  assert (H : status (get_current_time ascii_lower afternoon "Tokyo")
              = Some "success") by (vm_compute; reflexivity).
  split; [exact H|].
  exact (successful_lookup_city_shape ascii_lower afternoon "Tokyo"
           eq_refl (or_introl H)).
Defined.

(** X4 on "Berlin", in the afternoon and in the evening. *)
Lemma get_current_time_reads_five_zones_witness :
  (ascii_lower "Berlin" ∉ supported_cities) /\
  get_current_time ascii_lower afternoon "Berlin" =
  get_current_time ascii_lower evening "Berlin".
Proof.
  assert (H : ascii_lower "Berlin" ∉ supported_cities).
  { apply (bool_decide_unpack _). vm_compute. exact I. }
  split; [exact H|].
  exact (get_current_time_reads_five_zones
           ascii_lower afternoon evening "Berlin" (or_introl H)).
Defined.

(** X5 on "Tokyo", in the afternoon and in the evening: the readings
    differ, and so do the results. *)
Lemma get_current_time_result_determines_reading_witness :
  timezone_map !! ascii_lower "Tokyo" = Some "Asia/Tokyo" /\
  reading_ok (afternoon "Asia/Tokyo") = true /\
  reading_ok (evening "Asia/Tokyo") = true /\
  afternoon "Asia/Tokyo" <> evening "Asia/Tokyo" /\
  get_current_time ascii_lower afternoon "Tokyo" <>
  get_current_time ascii_lower evening "Tokyo".
Proof.
  assert (Hl : timezone_map !! ascii_lower "Tokyo" = Some "Asia/Tokyo")
    by (vm_compute; reflexivity).
  assert (Hok1 : reading_ok (afternoon "Asia/Tokyo") = true) by reflexivity.
  assert (Hok2 : reading_ok (evening "Asia/Tokyo") = true) by reflexivity.
  assert (Hdiff : afternoon "Asia/Tokyo" <> evening "Asia/Tokyo")
    by (vm_compute; discriminate).
  split; [exact Hl|]. split; [exact Hok1|]. split; [exact Hok2|].
  split; [exact Hdiff|].
  intros Heq. apply Hdiff.
  exact (proj1 (get_current_time_result_determines_reading
                  ascii_lower afternoon evening "Tokyo" "Asia/Tokyo"
                  Hl Hok1 Hok2) Heq).
Defined.

(** X7 on the keys "units" and "favorite_city". *)
Lemma save_user_preference_distinct_keys_commute_witness :
  "units" <> "favorite_city" /\
  (save_user_preference "favorite_city" "Paris"
     (save_user_preference "units" "metric" empty_context).2).2 =
  (save_user_preference "units" "metric"
     (save_user_preference "favorite_city" "Paris" empty_context).2).2.
Proof.
  assert (H : "units" <> "favorite_city") by discriminate.
  split; [exact H|].
  exact (proj1 (save_user_preference_distinct_keys_commute
                  "units" "metric" "favorite_city" "Paris" empty_context H)).
Defined.

(** X8 on a slot of the report pipeline. *)
Lemma invoke_all_keeps_other_namespaces_witness :
  in_user_namespace "research_findings" = false /\
  state (invoke_all ascii_lower afternoon
           [call_save_user_preference "units" "metric";
            call_get_weather "Tokyo";
            call_save_user_preference "research_findings" "none"]
           (mk_ToolContext gathered_state)).2 !! "research_findings" =
  Some "Notes of Researcher.".
Proof.
  assert (H : in_user_namespace "research_findings" = false)
    by (vm_compute; reflexivity).
  split; [exact H|].
  rewrite (invoke_all_keeps_other_namespaces ascii_lower afternoon _ _ _ H).
  vm_compute. reflexivity.
Defined.
